(** * Secret event handling of the cluster samples operator (pkg/stub/secrets.go)

    Shallow embedding of [copyDefaultClusterPullSecret], [secretsWeCareAbout],
    [manageDockerCfgSecret], [WaitingForCredential] and [processSecretEvent].

    The handler's external collaborators (the secret client, the CRD status
    writer and the upsert counter of the sample cache) are an environment
    [Env] of response functions; every call made to them is recorded in a
    call log, so that "no status write" or "exactly one UpdateStatus call"
    are statements about that log.  The configuration object is mutated in
    place by the Go code: it is threaded through the state [St] together
    with the handler's [secretRetryCount]. *)

From Stdlib Require Import String.
From stdpp Require Import base gmap strings list.

Open Scope string_scope.

(* ------------------------------------------------------------------ *)
(** ** Constants *)

Definition coreosPullSecretNamespace : string := "kube-system".
Definition coreosPullSecretName : string := "coreos-pull-secret".

(** Modelled from the spec: the constants [v1.SamplesRegistryCredentials],
    [v1.SamplesVersionAnnotation] and [v1.ImportCredentialsExist] of the
    api package, which is not among the sources ("a fixed well-known
    constant"). *)
Definition SamplesRegistryCredentials : string := "samples-registry-credentials".
Definition SamplesVersionAnnotation : string := "samples.operator.openshift.io/version".
Definition ImportCredentialsExist : string := "ImportCredentialsExist".

(* ------------------------------------------------------------------ *)
(** ** Data model *)

(** [corev1.Secret]; a nil annotation map is [None]. *)
Record Secret := mkSecret {
  sec_name : string;
  sec_namespace : string;
  sec_resourceVersion : string;
  sec_uid : string;
  sec_annotations : option (gmap string string);
  sec_labels : option (gmap string string);
  sec_data : gmap string string
}.

(** Errors as the handler distinguishes them: the two kinds recognised by
    [kerrors.IsNotFound] / [kerrors.IsAlreadyExists], and any other error
    with its message (the [fmt.Errorf] errors of this file among them). *)
Inductive err :=
| NotFound
| AlreadyExists
| Generic (msg : string).

Definition err_msg (e : err) : string :=
  match e with
  | NotFound => "not found"
  | AlreadyExists => "already exists"
  | Generic m => m
  end.

Definition IsNotFound (e : option err) : bool :=
  match e with Some NotFound => true | _ => false end.
Definition IsAlreadyExists (e : option err) : bool :=
  match e with Some AlreadyExists => true | _ => false end.

Inductive ConditionStatus := ConditionTrue | ConditionFalse | ConditionUnknown.

Definition status_eqb (a b : ConditionStatus) : bool :=
  match a, b with
  | ConditionTrue, ConditionTrue | ConditionFalse, ConditionFalse
  | ConditionUnknown, ConditionUnknown => true
  | _, _ => false
  end.

(** A condition of the Config status (timestamps are not modelled). *)
Record Condition := mkCondition {
  cond_status : ConditionStatus;
  cond_message : string
}.

Inductive ManagementState := Managed | Unmanaged | Removed | OtherState (s : string).

(** [v1.Config], reduced to what this file reads and writes. *)
Record Config := mkConfig {
  cfg_managementState : ManagementState;
  cfg_conditions : gmap string Condition;
  (** Modelled from the spec: [Config.ClusterNeedsCreds()] is defined
      outside the sources ("derived externally"). *)
  cfg_needsCreds : bool
}.

(** Modelled from the spec: [Config.Condition] returns the named condition,
    "a zero-value Unknown condition if never set". *)
Definition Condition_of (cfg : Config) (t : string) : Condition :=
  match cfg_conditions cfg !! t with
  | Some c => c
  | None => mkCondition ConditionUnknown ""
  end.

Definition ConditionIsTrue (cfg : Config) (t : string) : bool :=
  status_eqb (cond_status (Condition_of cfg t)) ConditionTrue.

(** Modelled from the spec: [Config.ConditionUpdate], the ConditionTracker's
    [Set]: pure in-memory mutation. *)
Definition ConditionUpdate (cfg : Config) (t : string) (c : Condition) : Config :=
  mkConfig (cfg_managementState cfg) (<[t := c]> (cfg_conditions cfg)) (cfg_needsCreds cfg).

(** Modelled from the spec: [Handler.GoodConditionUpdate] (handler.go, not
    among the sources) sets the status when it differs and clears the
    message: an empty message on a False/Unknown status means "not yet
    reported" (spec, section 3). *)
Definition GoodConditionUpdate (cfg : Config) (s : ConditionStatus) (t : string) : Config :=
  if status_eqb (cond_status (Condition_of cfg t)) s then cfg
  else ConditionUpdate cfg t (mkCondition s "").

(** Modelled from the spec: [Handler.processError] (handler.go, not among the
    sources) records the error into the condition with the given status and
    the formatted message, and returns the error.  It performs no I/O: its
    callers flush themselves (see [WaitingForCredential]'s doc comment,
    "the caller should call the sdk to update the object", and the explicit
    [UpdateStatus] after it in [processSecretEvent]). *)
Definition processError (cfg : Config) (t : string) (s : ConditionStatus) (e : err)
  : Config * err :=
  (ConditionUpdate cfg t (mkCondition s (err_msg e)), e).

(* ------------------------------------------------------------------ *)
(** ** External collaborators and the handler state *)

(** Calls made to the secret client and the CRD status writer. *)
Inductive Call :=
| CGet (ns name : string)
| CCreate (ns : string) (s : Secret)
| CUpdate (ns : string) (s : Secret)
| CDelete (ns name : string)
| CUpdateStatus (cfg : Config).

Definition is_store_call (c : Call) : bool :=
  match c with CUpdateStatus _ => false | _ => true end.
Definition is_update_status (c : Call) : bool :=
  match c with CUpdateStatus _ => true | _ => false end.

(** Responses of the collaborators, and the handler's read-only fields. *)
Record Env := mkEnv {
  env_version : string;                        (* h.version *)
  env_upserts : nat;                           (* cache.UpsertsAmount() *)
  env_get : string -> string -> err + option Secret;
  env_create : string -> Secret -> option err;
  env_update : string -> Secret -> option err;
  env_delete : string -> string -> option err;
  env_updateStatus : Config -> option err
}.

Record St := mkSt {
  st_cfg : Config;
  st_retry : nat;                              (* h.secretRetryCount *)
  st_log : list Call
}.

Definition M (A : Type) : Type := St -> A * St.

Definition ret {A} (a : A) : M A := fun s => (a, s).
Definition bind {A B} (m : M A) (k : A -> M B) : M B :=
  fun s => let '(a, s') := m s in k a s'.

Notation "x <- m ;; k" := (bind m (fun x => k))
  (at level 100, m at next level, right associativity).
Notation "m ;;; k" := (bind m (fun _ => k))
  (at level 100, right associativity).

Definition get_cfg : M Config := fun s => (st_cfg s, s).
Definition put_cfg (c : Config) : M unit :=
  fun s => (tt, mkSt c (st_retry s) (st_log s)).
Definition get_retry : M nat := fun s => (st_retry s, s).
Definition put_retry (n : nat) : M unit :=
  fun s => (tt, mkSt (st_cfg s) n (st_log s)).
Definition record (c : Call) : M unit :=
  fun s => (tt, mkSt (st_cfg s) (st_retry s) (st_log s ++ [c])).

Section Handler.
Variable env : Env.

Definition secret_get (ns name : string) : M (err + option Secret) :=
  record (CGet ns name) ;;; ret (env_get env ns name).
Definition secret_create (ns : string) (s : Secret) : M (option err) :=
  record (CCreate ns s) ;;; ret (env_create env ns s).
Definition secret_update (ns : string) (s : Secret) : M (option err) :=
  record (CUpdate ns s) ;;; ret (env_update env ns s).
Definition secret_delete (ns name : string) : M (option err) :=
  record (CDelete ns name) ;;; ret (env_delete env ns name).
Definition UpdateStatus : M (option err) :=
  cfg <- get_cfg ;; record (CUpdateStatus cfg) ;;; ret (env_updateStatus env cfg).

Definition good_condition_update (s : ConditionStatus) (t : string) : M unit :=
  cfg <- get_cfg ;; put_cfg (GoodConditionUpdate cfg s t).

Definition process_error (t : string) (s : ConditionStatus) (e : err) : M err :=
  cfg <- get_cfg ;; let '(cfg', e') := processError cfg t s e in put_cfg cfg' ;;; ret e'.

(* ------------------------------------------------------------------ *)
(** ** copyDefaultClusterPullSecret *)

(** [secret.DeepCopyInto(&secretToCreate)] followed by the field rewrites. *)
Definition secretToCreate (secret : Secret) : Secret :=
  mkSecret SamplesRegistryCredentials "" "" ""
    (Some (<[SamplesVersionAnnotation := env_version env]> ∅))
    (sec_labels secret) (sec_data secret).

Definition copy_secret (secret : Secret) : M (option err) :=
  let stc := secretToCreate secret in
  e <- secret_create "openshift" stc ;;
  if IsAlreadyExists e then secret_update "openshift" stc else ret e.

Definition copyDefaultClusterPullSecret (secret : option Secret) : M (option err) :=
  match secret with
  | Some s => copy_secret s
  | None =>
      r <- secret_get coreosPullSecretNamespace coreosPullSecretName ;;
      match r with
      | inl e => ret (Some e)
      | inr None => ret None
      | inr (Some s) => copy_secret s
      end
  end.

Definition secretsWeCareAbout (secret : Secret) : bool :=
  let kubeSecret := String.eqb (sec_name secret) coreosPullSecretName
                    && String.eqb (sec_namespace secret) coreosPullSecretNamespace in
  let openshiftSecret := String.eqb (sec_name secret) SamplesRegistryCredentials
                         && String.eqb (sec_namespace secret) "openshift" in
  kubeSecret || openshiftSecret.

(* ------------------------------------------------------------------ *)
(** ** manageDockerCfgSecret *)

(** The Go [switch secret.Name] tests the [SamplesRegistryCredentials] case
    first; a non-deleted event of that secret leaves the switch and
    returns nil. *)
Definition manageDockerCfgSecret (deleted : bool) (secret : Secret) : M (option err) :=
  if negb (secretsWeCareAbout secret) then ret None
  else if String.eqb (sec_name secret) SamplesRegistryCredentials then
    if deleted then
      e <- copyDefaultClusterPullSecret None ;;
      match e with
      | Some _ =>
          if IsNotFound e then
            good_condition_update ConditionFalse ImportCredentialsExist ;;; ret None
          else ret e
      | None => good_condition_update ConditionTrue ImportCredentialsExist ;;; ret None
      end
    else ret None
  else if String.eqb (sec_name secret) coreosPullSecretName then
    if deleted then
      e <- secret_delete "openshift" SamplesRegistryCredentials ;;
      match e with
      | Some _ =>
          if negb (IsNotFound e) then ret e
          else good_condition_update ConditionFalse ImportCredentialsExist ;;; ret None
      | None => good_condition_update ConditionFalse ImportCredentialsExist ;;; ret None
      end
    else
      e <- copyDefaultClusterPullSecret (Some secret) ;;
      match e with
      | None => good_condition_update ConditionTrue ImportCredentialsExist ;;; ret e
      | Some _ => ret e
      end
  else ret None.

End Handler.

(* ------------------------------------------------------------------ *)
(** ** WaitingForCredential *)

Definition waitingMsg : string :=
  "Cannot create rhel imagestreams to registry.redhat.io without the credentials being available".

(** Returns the two booleans and the (in place mutated) Config. *)
Definition WaitingForCredential (cfg : Config) : (bool * bool) * Config :=
  if cfg_needsCreds cfg then
    let cred := Condition_of cfg ImportCredentialsExist in
    if Nat.ltb 0 (String.length (cond_message cred)) then ((true, false), cfg)
    else
      let '(cfg', _) := processError cfg ImportCredentialsExist ConditionFalse
                                     (Generic waitingMsg) in
      ((true, true), cfg')
  else ((false, false), cfg).

(* ------------------------------------------------------------------ *)
(** ** processSecretEvent *)

Definition busyMsg : string :=
  "retry secret event because in the middle of an sample upsert cycle".
Definition retryDeleteMsg : string :=
  "retry on credential deletion in the openshift namespace to make sure the operator deleted it".
Definition noAnnotationMsg : string :=
  "the samples credential was created/updated in the openshift namespace without the version annotation".

(** [_, ok := dockercfgSecret.Annotations[v1.SamplesVersionAnnotation]]
    under the [Annotations != nil] test. *)
Definition hasVersionAnnotation (secret : Secret) : bool :=
  match sec_annotations secret with
  | Some m => match m !! SamplesVersionAnnotation with Some _ => true | None => false end
  | None => false
  end.

Section Process.
Variable env : Env.

(** Lines 201-222: from the reset of the retry counter to the end. *)
Definition process_tail (removedState deleted : bool) (secret : Secret) : M (option err) :=
  put_retry 0 ;;;
  if removedState then ret None
  else
    before <- get_cfg ;;
    let beforeStatus := cond_status (Condition_of before ImportCredentialsExist) in
    e <- manageDockerCfgSecret env deleted secret ;;
    match e with
    | Some e' =>
        process_error ImportCredentialsExist ConditionUnknown e' ;;; UpdateStatus env
    | None =>
        after <- get_cfg ;;
        if status_eqb beforeStatus (cond_status (Condition_of after ImportCredentialsExist))
        then ret None
        else UpdateStatus env
    end.

Definition processSecretEvent (secret : Secret) (deleted : bool) : M (option err) :=
  if Nat.ltb 0 (env_upserts env) then ret (Some (Generic busyMsg))
  else
    cfg <- get_cfg ;;
    match cfg_managementState cfg with
    | Unmanaged => ret None
    | ms =>
        let removedState := match ms with Removed => true | _ => false end in
        if String.eqb (sec_namespace secret) "openshift" then
          if negb deleted then
            if hasVersionAnnotation secret then
              if negb (ConditionIsTrue cfg ImportCredentialsExist) then
                good_condition_update ConditionTrue ImportCredentialsExist ;;;
                UpdateStatus env
              else ret None
            else
              e <- process_error ImportCredentialsExist ConditionUnknown
                                 (Generic noAnnotationMsg) ;;
              ret (Some e)
          else
            n <- get_retry ;;
            if ConditionIsTrue cfg ImportCredentialsExist && Nat.ltb n 3 then
              put_retry (S n) ;;; ret (Some (Generic retryDeleteMsg))
            else if removedState then
              good_condition_update ConditionFalse ImportCredentialsExist ;;;
              UpdateStatus env
            else process_tail removedState deleted secret
        else process_tail removedState deleted secret
    end.

End Process.

(* ------------------------------------------------------------------ *)
(** ** Concrete inputs *)

Definition srcSecret : Secret :=
  mkSecret coreosPullSecretName coreosPullSecretNamespace "12" "uid-1" None None
           {[ ".dockerconfigjson" := "{}" ]}.

Definition mirrorSecret (annotated : bool) : Secret :=
  mkSecret SamplesRegistryCredentials "openshift" "" ""
           (if annotated then Some {[ SamplesVersionAnnotation := "4.0" ]} else None) None ∅.

Definition otherSecret : Secret := mkSecret "other" "openshift" "" "" None None ∅.

(** Every call succeeds and the source secret exists. *)
Definition okEnv (upserts : nat) : Env :=
  mkEnv "4.0" upserts (fun _ _ => inr (Some srcSecret)) (fun _ _ => None)
        (fun _ _ => None) (fun _ _ => None) (fun _ => None).

(** The mirror Create fails with an error other than AlreadyExists. *)
Definition failingCreateEnv : Env :=
  mkEnv "4.0" 0 (fun _ _ => inr (Some srcSecret)) (fun _ _ => Some (Generic "boom"))
        (fun _ _ => None) (fun _ _ => None) (fun _ => None).

Definition cfgWith (ms : ManagementState) (s : ConditionStatus) : Config :=
  mkConfig ms {[ ImportCredentialsExist := mkCondition s "" ]} false.

(* ------------------------------------------------------------------ *)
(** ** Helpers *)

Definition with_retry (st : St) (n : nat) : St := mkSt (st_cfg st) n (st_log st).

(** The payload of the mirror secret, as section 4.2 of the spec puts it. *)
Definition mirror_payload (version : string) (s : Secret) : Prop :=
  sec_name s = SamplesRegistryCredentials /\ sec_namespace s = "" /\
  sec_resourceVersion s = "" /\ sec_uid s = "" /\
  exists m, sec_annotations s = Some m /\
    forall k, m !! k = if decide (k = SamplesVersionAnnotation)
                       then Some version else None.

(** The outcome of [copy_secret]: one Create, and an Update with the same
    payload when, and only when, the Create reports AlreadyExists. *)
Definition copy_calls (env : Env) (s : Secret) : list Call :=
  let stc := secretToCreate env s in
  CCreate "openshift" stc ::
  (if IsAlreadyExists (env_create env "openshift" stc) then [CUpdate "openshift" stc] else []).

Definition copy_result (env : Env) (s : Secret) : option err :=
  let stc := secretToCreate env s in
  if IsAlreadyExists (env_create env "openshift" stc)
  then env_update env "openshift" stc else env_create env "openshift" stc.

Definition is_removed (ms : ManagementState) : bool :=
  match ms with Removed => true | _ => false end.

(** The removed-state finalisation of a mirror deletion (lines 193-197). *)
Definition finalize (env : Env) (st : St) : option err * St :=
  let cfg' := GoodConditionUpdate (st_cfg st) ConditionFalse ImportCredentialsExist in
  (env_updateStatus env cfg', mkSt cfg' (st_retry st) (st_log st ++ [CUpdateStatus cfg'])).

(** Operations that leave the retry counter alone. *)
Definition keeps_retry {A} (m : M A) : Prop :=
  forall st, st_retry (snd (m st)) = st_retry st.

(** Everything of a Config but the ImportCredentialsExist condition. *)
Definition cfg_frame (c c' : Config) : Prop :=
  cfg_managementState c' = cfg_managementState c /\ cfg_needsCreds c' = cfg_needsCreds c /\
  forall t, t <> ImportCredentialsExist -> cfg_conditions c' !! t = cfg_conditions c !! t.

(** A relation between the state before and after a computation. *)
Definition preserves (R : St -> St -> Prop) {A} (m : M A) : Prop :=
  forall st, R st (snd (m st)).

Definition frame_rel (st st' : St) : Prop := cfg_frame (st_cfg st) (st_cfg st').

(** Same counter, same frame, calls only appended and none of them a
    status write. *)
Definition manage_rel (st st' : St) : Prop :=
  st_retry st' = st_retry st /\ cfg_frame (st_cfg st) (st_cfg st') /\
  exists new, st_log st' = (st_log st ++ new)%list /\
              Forall (fun c => is_update_status c = false) new.

(** The mirror written by [copyDefaultClusterPullSecret] as the API server
    hands it back in a watch event: in namespace openshift, with the
    resource version and UID it assigned. *)
Definition mirror_echo (env : Env) (s : Secret) (rv uid : string) : Secret :=
  let m := secretToCreate env s in
  mkSecret (sec_name m) "openshift" rv uid (sec_annotations m) (sec_labels m) (sec_data m).

(** The shape of one event's outcome: calls are only appended, and either
    none of them writes the status and the result is nil or one of the
    errors built by [processSecretEvent] itself, or exactly one status
    write happens, it is the last call, it writes the final Config, and the
    result is that write's result. *)
Definition flush_shape (env : Env) (st : St) (r : option err) (st' : St) : Prop :=
  exists new, st_log st' = (st_log st ++ new)%list /\
  ((Forall (fun c => is_update_status c = false) new /\
    (r = None \/ r = Some (Generic busyMsg) \/ r = Some (Generic retryDeleteMsg) \/
     r = Some (Generic noAnnotationMsg))) \/
   (exists pre, new = (pre ++ [CUpdateStatus (st_cfg st')])%list /\
      Forall (fun c => is_update_status c = false) pre /\
      r = env_updateStatus env (st_cfg st'))).

Lemma status_eqb_eq a b : status_eqb a b = true <-> a = b.
Proof. destruct a, b; simpl; split; congruence. Qed.

Lemma GoodConditionUpdate_status cfg s t :
  cond_status (Condition_of (GoodConditionUpdate cfg s t) t) = s.
Proof.
  unfold GoodConditionUpdate.
  destruct (status_eqb _ s) eqn:E.
  - by apply status_eqb_eq.
  - unfold Condition_of, ConditionUpdate; simpl. by rewrite lookup_insert_eq.
Qed.

Lemma processError_condition cfg t s e :
  Condition_of (fst (processError cfg t s e)) t = mkCondition s (err_msg e).
Proof. unfold Condition_of; simpl. by rewrite lookup_insert_eq. Qed.

Lemma secretToCreate_payload env s : mirror_payload (env_version env) (secretToCreate env s).
Proof.
  repeat split. eexists; split; [reflexivity|].
  intros k. destruct (decide (k = SamplesVersionAnnotation)) as [->|Hne].
  - by rewrite lookup_insert_eq.
  - rewrite lookup_insert_ne by congruence. apply lookup_empty.
Qed.

Lemma copy_secret_eq env s st :
  copy_secret env s st =
  (copy_result env s, mkSt (st_cfg st) (st_retry st) (st_log st ++ copy_calls env s)).
Proof.
  unfold copy_secret, copy_result, copy_calls, secret_create, secret_update,
    bind, ret, record; simpl.
  destruct (IsAlreadyExists _); simpl; rewrite <- ?app_assoc; reflexivity.
Qed.

Lemma keeps_retry_ret {A} (a : A) : keeps_retry (ret a).
Proof. intros st. reflexivity. Qed.

Lemma keeps_retry_bind {A B} (m : M A) (k : A -> M B) :
  keeps_retry m -> (forall a, keeps_retry (k a)) -> keeps_retry (bind m k).
Proof.
  intros Hm Hk st. unfold bind.
  specialize (Hm st). destruct (m st) as [a st'] eqn:E. simpl in Hm.
  rewrite Hk. exact Hm.
Qed.

Lemma keeps_retry_record c : keeps_retry (record c).
Proof. intros st. reflexivity. Qed.
Lemma keeps_retry_get_cfg : keeps_retry get_cfg.
Proof. intros st. reflexivity. Qed.
Lemma keeps_retry_put_cfg c : keeps_retry (put_cfg c).
Proof. intros st. reflexivity. Qed.

Create HintDb retry_db.
#[local] Hint Resolve keeps_retry_ret keeps_retry_bind keeps_retry_record
  keeps_retry_get_cfg keeps_retry_put_cfg : retry_db.

Ltac keeps :=
  repeat match goal with
  | |- keeps_retry (match ?x with _ => _ end) => destruct x
  | |- keeps_retry (if ?b then _ else _) => destruct b
  | |- keeps_retry (bind _ _) => apply keeps_retry_bind; [|intro]
  | |- _ => solve [auto with retry_db]
  | |- keeps_retry _ => progress unfold secret_get, secret_create, secret_update,
                           secret_delete, UpdateStatus, good_condition_update,
                           process_error, copy_secret, copyDefaultClusterPullSecret
  end.

Lemma keeps_retry_manage env deleted secret :
  keeps_retry (manageDockerCfgSecret env deleted secret).
Proof. unfold manageDockerCfgSecret. keeps. Qed.

Lemma keeps_retry_UpdateStatus env : keeps_retry (UpdateStatus env).
Proof. keeps. Qed.

(** [process_tail] outside the removed state: reset, then
    [manageDockerCfgSecret], then fold an error into the condition and
    flush, or flush only on a status change. *)
Lemma process_tail_eq env deleted secret st :
  process_tail env false deleted secret st =
  let '(e, st1) := manageDockerCfgSecret env deleted secret (with_retry st 0) in
  match e with
  | Some e' =>
      let cfg' := fst (processError (st_cfg st1) ImportCredentialsExist ConditionUnknown e') in
      (env_updateStatus env cfg', mkSt cfg' (st_retry st1) (st_log st1 ++ [CUpdateStatus cfg']))
  | None =>
      if status_eqb (cond_status (Condition_of (st_cfg st) ImportCredentialsExist))
                    (cond_status (Condition_of (st_cfg st1) ImportCredentialsExist))
      then (None, st1)
      else (env_updateStatus env (st_cfg st1),
            mkSt (st_cfg st1) (st_retry st1) (st_log st1 ++ [CUpdateStatus (st_cfg st1)]))
  end.
Proof.
  unfold process_tail, bind, put_retry, get_cfg, ret. simpl.
  change (mkSt (st_cfg st) 0 (st_log st)) with (with_retry st 0).
  destruct (manageDockerCfgSecret env deleted secret (with_retry st 0)) as [[e|] st1].
  - reflexivity.
  - destruct (status_eqb _ _); reflexivity.
Qed.

Lemma reset_then_keeps {A} (m : M A) st :
  keeps_retry m -> st_retry (snd ((put_retry 0 ;;; m) st)) = 0.
Proof. intros H. unfold bind, put_retry. simpl. rewrite H. reflexivity. Qed.

#[local] Hint Resolve keeps_retry_manage keeps_retry_UpdateStatus : retry_db.

Lemma process_tail_retry env removedState deleted secret st :
  st_retry (snd (process_tail env removedState deleted secret st)) = 0.
Proof. unfold process_tail. apply reset_then_keeps. keeps. Qed.

(** [processSecretEvent] by branch, gate clear and not Unmanaged. *)
Lemma processSecretEvent_delete_openshift env st secret :
  env_upserts env = 0 ->
  cfg_managementState (st_cfg st) <> Unmanaged ->
  sec_namespace secret = "openshift" ->
  processSecretEvent env secret true st =
  if ConditionIsTrue (st_cfg st) ImportCredentialsExist && Nat.ltb (st_retry st) 3
  then (Some (Generic retryDeleteMsg), with_retry st (S (st_retry st)))
  else if is_removed (cfg_managementState (st_cfg st)) then finalize env st
  else process_tail env false true secret st.
Proof.
  intros Hg Hm Hns. unfold processSecretEvent. rewrite Hg, Hns. simpl.
  destruct st as [cfg n log]; simpl in *.
  unfold bind, get_cfg, get_retry, put_retry, ret, good_condition_update, put_cfg,
    UpdateStatus, record, finalize, with_retry; simpl.
  destruct (cfg_managementState cfg); try congruence; simpl;
    destruct (ConditionIsTrue cfg ImportCredentialsExist && Nat.ltb n 3); reflexivity.
Qed.

Lemma processSecretEvent_nondelete_openshift env st secret :
  env_upserts env = 0 ->
  cfg_managementState (st_cfg st) <> Unmanaged ->
  sec_namespace secret = "openshift" ->
  processSecretEvent env secret false st =
  if hasVersionAnnotation secret then
    if ConditionIsTrue (st_cfg st) ImportCredentialsExist then (None, st)
    else let cfg' := GoodConditionUpdate (st_cfg st) ConditionTrue ImportCredentialsExist in
         (env_updateStatus env cfg', mkSt cfg' (st_retry st) (st_log st ++ [CUpdateStatus cfg']))
  else (Some (Generic noAnnotationMsg),
        mkSt (fst (processError (st_cfg st) ImportCredentialsExist ConditionUnknown
                                (Generic noAnnotationMsg))) (st_retry st) (st_log st)).
Proof.
  intros Hg Hm Hns. unfold processSecretEvent. rewrite Hg, Hns. simpl.
  destruct st as [cfg n log]; simpl in *.
  unfold bind, get_cfg, ret, good_condition_update, put_cfg, process_error,
    UpdateStatus, record; simpl.
  destruct (cfg_managementState cfg); try congruence; simpl;
    destruct (hasVersionAnnotation secret); try reflexivity;
    destruct (ConditionIsTrue cfg ImportCredentialsExist); reflexivity.
Qed.

Lemma processSecretEvent_other_namespace env st secret deleted :
  env_upserts env = 0 ->
  cfg_managementState (st_cfg st) <> Unmanaged ->
  sec_namespace secret <> "openshift" ->
  processSecretEvent env secret deleted st =
  process_tail env (is_removed (cfg_managementState (st_cfg st))) deleted secret st.
Proof.
  intros Hg Hm Hns. unfold processSecretEvent. rewrite Hg.
  apply String.eqb_neq in Hns. rewrite Hns. simpl.
  destruct st as [cfg n log]; simpl in *.
  unfold bind, get_cfg; simpl.
  destruct (cfg_managementState cfg); try congruence; reflexivity.
Qed.

(* ------------------------------------------------------------------ *)
(** ** Claims *)

(** C5: with upserts in flight, [processSecretEvent] fails at once with the
    busy error, for every event, before reading the management state and
    before any call: Config, retry counter and call log are unchanged. *)
Theorem processSecretEvent_busy_gate (env : Env) (st : St) (secret : Secret) (deleted : bool) :
  0 < env_upserts env ->
  processSecretEvent env secret deleted st = (Some (Generic busyMsg), st).
Proof.
  intros H. unfold processSecretEvent.
  destruct (Nat.ltb_spec 0 (env_upserts env)); [reflexivity | lia].
Qed.

Lemma processSecretEvent_busy_gate_witness :
  let env := mkEnv "4.0" 2 (fun _ _ => inr None) (fun _ _ => None) (fun _ _ => None)
                   (fun _ _ => None) (fun _ => None) in
  let st := mkSt (mkConfig Managed ∅ false) 1 [] in
  0 < env_upserts env /\
  processSecretEvent env (mkSecret "x" "openshift" "" "" None None ∅) true st
  = (Some (Generic busyMsg), st).
Proof.
  simpl. split; [lia|]. apply processSecretEvent_busy_gate. simpl. lia.
Defined.

(** C8: [WaitingForCredential] returns (false,false) and leaves the Config
    alone when no credential is needed; (true,false) without change when
    the condition is already False with a message; and when the message is
    empty it sets the condition False with a non-empty message and returns
    (true,true). *)
Theorem WaitingForCredential_cases (cfg : Config) :
  (cfg_needsCreds cfg = false -> WaitingForCredential cfg = ((false, false), cfg)) /\
  (cfg_needsCreds cfg = true ->
   cond_status (Condition_of cfg ImportCredentialsExist) = ConditionFalse ->
   cond_message (Condition_of cfg ImportCredentialsExist) <> "" ->
   WaitingForCredential cfg = ((true, false), cfg)) /\
  (cfg_needsCreds cfg = true ->
   cond_message (Condition_of cfg ImportCredentialsExist) = "" ->
   exists cfg', WaitingForCredential cfg = ((true, true), cfg') /\
     cond_status (Condition_of cfg' ImportCredentialsExist) = ConditionFalse /\
     cond_message (Condition_of cfg' ImportCredentialsExist) <> "").
Proof.
  unfold WaitingForCredential. split; [|split].
  - intros H. by rewrite H.
  - intros H _ Hm. rewrite H.
    destruct (cond_message (Condition_of cfg ImportCredentialsExist)) eqn:E;
      [congruence | reflexivity].
  - intros H Hm. rewrite H, Hm. simpl.
    eexists; split; [reflexivity|].
    unfold Condition_of; simpl. rewrite lookup_insert_eq; simpl.
    split; [reflexivity | discriminate].
Qed.

Lemma WaitingForCredential_cases_witness :
  let c0 := mkConfig Managed ∅ false in
  let c1 := mkConfig Managed {[ ImportCredentialsExist := mkCondition ConditionFalse "gone" ]} true in
  let c2 := mkConfig Managed ∅ true in
  (WaitingForCredential c0 = ((false, false), c0)) /\
  (WaitingForCredential c1 = ((true, false), c1)) /\
  (exists cfg', WaitingForCredential c2 = ((true, true), cfg') /\
     cond_status (Condition_of cfg' ImportCredentialsExist) = ConditionFalse /\
     cond_message (Condition_of cfg' ImportCredentialsExist) <> "").
Proof.
  simpl. split; [|split].
  - apply (WaitingForCredential_cases (mkConfig Managed ∅ false)). reflexivity.
  - apply (WaitingForCredential_cases
             (mkConfig Managed {[ ImportCredentialsExist := mkCondition ConditionFalse "gone" ]} true));
      [reflexivity | vm_compute; reflexivity | vm_compute; discriminate].
  - apply (WaitingForCredential_cases (mkConfig Managed ∅ true)); reflexivity.
Defined.

(** C7: [copyDefaultClusterPullSecret] creates, in namespace openshift, the
    mirror payload (name [SamplesRegistryCredentials], namespace,
    resourceVersion and UID blanked, annotations exactly the version
    stamp); on AlreadyExists it updates with the same payload; any other
    error of the store (Get, Create or Update) is returned unchanged. *)
Theorem copyDefaultClusterPullSecret_mirror (env : Env) (st : St) (secret : option Secret) :
  let '(r, st') := copyDefaultClusterPullSecret env secret st in
  let getpart := match secret with
                 | Some _ => []
                 | None => [CGet coreosPullSecretNamespace coreosPullSecretName] end in
  st_cfg st' = st_cfg st /\ st_retry st' = st_retry st /\
  match match secret with
        | Some s => inr (Some s)
        | None => env_get env coreosPullSecretNamespace coreosPullSecretName end with
  | inl e => r = Some e /\ st_log st' = (st_log st ++ getpart)%list
  | inr None => r = None /\ st_log st' = (st_log st ++ getpart)%list
  | inr (Some s) =>
      let stc := secretToCreate env s in
      mirror_payload (env_version env) stc /\
      r = (if IsAlreadyExists (env_create env "openshift" stc)
           then env_update env "openshift" stc else env_create env "openshift" stc) /\
      st_log st' = (st_log st ++ getpart ++ [CCreate "openshift" stc] ++
                   (if IsAlreadyExists (env_create env "openshift" stc)
                    then [CUpdate "openshift" stc] else []))%list
  end.
Proof.
  destruct secret as [s|].
  - simpl. rewrite copy_secret_eq. simpl.
    repeat split; try apply secretToCreate_payload; reflexivity.
  - unfold copyDefaultClusterPullSecret, secret_get, bind, ret, record. simpl.
    destruct (env_get env coreosPullSecretNamespace coreosPullSecretName) as [e|[s|]].
    + repeat split.
    + rewrite copy_secret_eq. simpl.
      repeat split; try apply secretToCreate_payload; try reflexivity.
      rewrite <- app_assoc. reflexivity.
    + repeat split.
Qed.

(** C9: on a deletion of the source secret, [manageDockerCfgSecret] deletes
    the mirror secret in openshift; NotFound counts as success: condition
    set False and nil returned; any other error is returned with the
    Config unchanged. *)
Theorem manageDockerCfgSecret_source_deleted (env : Env) (st : St) (secret : Secret) :
  sec_name secret = coreosPullSecretName ->
  sec_namespace secret = coreosPullSecretNamespace ->
  let '(r, st') := manageDockerCfgSecret env true secret st in
  st_log st' = (st_log st ++ [CDelete "openshift" SamplesRegistryCredentials])%list /\
  st_retry st' = st_retry st /\
  match env_delete env "openshift" SamplesRegistryCredentials with
  | None | Some NotFound =>
      r = None /\ cond_status (Condition_of (st_cfg st') ImportCredentialsExist) = ConditionFalse
  | Some e => r = Some e /\ st_cfg st' = st_cfg st
  end.
Proof.
  intros Hn Hns.
  unfold manageDockerCfgSecret, secretsWeCareAbout, secret_delete,
    good_condition_update, get_cfg, put_cfg, bind, ret, record.
  rewrite Hn, Hns. simpl.
  destruct (env_delete env "openshift" SamplesRegistryCredentials) as [[| |m]|]; simpl;
    repeat split; apply GoodConditionUpdate_status.
Qed.

Lemma manageDockerCfgSecret_source_deleted_witness :
  let src := mkSecret coreosPullSecretName coreosPullSecretNamespace "1" "u" None None ∅ in
  let env := mkEnv "4.0" 0 (fun _ _ => inr None) (fun _ _ => None) (fun _ _ => None)
                   (fun _ _ => Some NotFound) (fun _ => None) in
  let st := mkSt (mkConfig Managed {[ ImportCredentialsExist := mkCondition ConditionTrue "" ]} false) 0 [] in
  sec_name src = coreosPullSecretName /\ sec_namespace src = coreosPullSecretNamespace /\
  let '(r, st') := manageDockerCfgSecret env true src st in
  st_log st' = (st_log st ++ [CDelete "openshift" SamplesRegistryCredentials])%list /\
  st_retry st' = st_retry st /\
  match env_delete env "openshift" SamplesRegistryCredentials with
  | None | Some NotFound =>
      r = None /\ cond_status (Condition_of (st_cfg st') ImportCredentialsExist) = ConditionFalse
  | Some e => r = Some e /\ st_cfg st' = st_cfg st
  end.
Proof.
  intros src env st. split; [reflexivity|]. split; [reflexivity|].
  apply (manageDockerCfgSecret_source_deleted env st src); reflexivity.
Defined.


Lemma status_eqb_refl a : status_eqb a a = true.
Proof. by destruct a. Qed.

Lemma GoodConditionUpdate_mgmt cfg s t :
  cfg_managementState (GoodConditionUpdate cfg s t) = cfg_managementState cfg.
Proof. unfold GoodConditionUpdate. by destruct (status_eqb _ _). Qed.

Lemma ConditionIsTrue_good cfg :
  ConditionIsTrue (GoodConditionUpdate cfg ConditionTrue ImportCredentialsExist)
                  ImportCredentialsExist = true.
Proof. unfold ConditionIsTrue. by rewrite GoodConditionUpdate_status. Qed.




(** C2 (code_bug): a non-delete event of an unannotated secret in openshift
    sets the condition Unknown with a message, but the branch returns the
    error of [processError] and no UpdateStatus call is made. *)
Theorem processSecretEvent_unannotated_no_flush :
  let '(r, st') := processSecretEvent (okEnv 0) (mirrorSecret false) false
                     (mkSt (cfgWith Managed ConditionTrue) 0 []) in
  r = Some (Generic noAnnotationMsg) /\
  cond_status (Condition_of (st_cfg st') ImportCredentialsExist) = ConditionUnknown /\
  cond_message (Condition_of (st_cfg st') ImportCredentialsExist) <> "" /\
  st_log st' = [].
Proof. vm_compute. repeat split; discriminate. Qed.

Lemma manage_irrelevant env deleted secret st :
  secretsWeCareAbout secret = false ->
  manageDockerCfgSecret env deleted secret st = (None, st).
Proof. intros H. unfold manageDockerCfgSecret. by rewrite H. Qed.

(** In the Managed state with the gate clear, an event of a secret outside
    the openshift namespace that is not the source secret is a no-op: nil,
    Config unchanged, no call; the retry counter is reset to 0. *)
Theorem processSecretEvent_irrelevant_secret (env : Env) (st : St) (secret : Secret)
  (deleted : bool) :
  env_upserts env = 0 ->
  cfg_managementState (st_cfg st) = Managed ->
  sec_namespace secret <> "openshift" ->
  ~ (sec_name secret = coreosPullSecretName /\ sec_namespace secret = coreosPullSecretNamespace) ->
  processSecretEvent env secret deleted st = (None, with_retry st 0).
Proof.
  intros Hg Hm Hns Hid.
  assert (Hc : secretsWeCareAbout secret = false).
  { unfold secretsWeCareAbout.
    apply String.eqb_neq in Hns. rewrite Hns, !andb_false_r, orb_false_r.
    destruct (String.eqb (sec_name secret) coreosPullSecretName) eqn:E1; [|reflexivity].
    destruct (String.eqb (sec_namespace secret) coreosPullSecretNamespace) eqn:E2; [|reflexivity].
    apply String.eqb_eq in E1, E2. tauto. }
  rewrite processSecretEvent_other_namespace by (congruence || assumption).
  rewrite Hm. simpl. rewrite process_tail_eq, manage_irrelevant by exact Hc.
  simpl. rewrite status_eqb_refl. reflexivity.
Qed.

Lemma processSecretEvent_irrelevant_secret_witness :
  let sec := mkSecret "coreos-pull-secret" "default" "" "" None None ∅ in
  processSecretEvent (okEnv 0) sec false (mkSt (cfgWith Managed ConditionTrue) 2 [])
  = (None, with_retry (mkSt (cfgWith Managed ConditionTrue) 2 []) 0).
Proof.
  apply processSecretEvent_irrelevant_secret;
    [reflexivity | reflexivity | discriminate | intros [_ H]; discriminate].
Defined.

(** C3 (code_bug): a secret named "other" in openshift matches neither
    identity, yet the mirror-namespace branch takes it for the operator's
    credential.  Unannotated and not deleted, it sets the condition Unknown
    with the missing-annotation message and returns that error; deleted
    while the condition is True, it returns the retry error and bumps the
    retry counter.  No call is made in either case. *)
Theorem processSecretEvent_other_openshift_secret :
  secretsWeCareAbout otherSecret = false /\
  (processSecretEvent (okEnv 0) otherSecret false (mkSt (cfgWith Managed ConditionTrue) 0 [])
   = (Some (Generic noAnnotationMsg),
      mkSt (fst (processError (cfgWith Managed ConditionTrue) ImportCredentialsExist
                              ConditionUnknown (Generic noAnnotationMsg))) 0 [])) /\
  (processSecretEvent (okEnv 0) otherSecret true (mkSt (cfgWith Managed ConditionTrue) 0 [])
   = (Some (Generic retryDeleteMsg), mkSt (cfgWith Managed ConditionTrue) 1 [])).
Proof. split; [reflexivity|]. split; vm_compute; reflexivity. Qed.

(** C4 (as the code has it): where each return of [processSecretEvent]
    leaves the retry counter.  The busy gate, Unmanaged, the non-delete
    returns of the openshift branch and the Removed-state finalisation
    leave it as it was; the retry return increments it; every return after
    the openshift branch (line 201 onwards) leaves it 0. *)
Theorem processSecretEvent_retry_counter (env : Env) (st : St) (secret : Secret)
  (deleted : bool) :
  let '(_, st') := processSecretEvent env secret deleted st in
  let ms := cfg_managementState (st_cfg st) in
  let window := ConditionIsTrue (st_cfg st) ImportCredentialsExist && Nat.ltb (st_retry st) 3 in
  (0 < env_upserts env -> st_retry st' = st_retry st) /\
  (env_upserts env = 0 -> ms = Unmanaged -> st_retry st' = st_retry st) /\
  (env_upserts env = 0 -> ms <> Unmanaged -> sec_namespace secret = "openshift" ->
   deleted = false -> st_retry st' = st_retry st) /\
  (env_upserts env = 0 -> ms <> Unmanaged -> sec_namespace secret = "openshift" ->
   deleted = true -> window = true -> st_retry st' = S (st_retry st)) /\
  (env_upserts env = 0 -> ms = Removed -> sec_namespace secret = "openshift" ->
   deleted = true -> window = false -> st_retry st' = st_retry st) /\
  (env_upserts env = 0 -> ms <> Unmanaged ->
   (sec_namespace secret <> "openshift" \/ (deleted = true /\ window = false /\ ms <> Removed)) ->
   st_retry st' = 0).
Proof.
  destruct (processSecretEvent env secret deleted st) as [r st'] eqn:E. cbv zeta.
  split; [|split; [|split; [|split; [|split]]]].
  - intros Hg. rewrite processSecretEvent_busy_gate in E by exact Hg.
    injection E; intros; subst; reflexivity.
  - intros Hg Hm. unfold processSecretEvent in E. rewrite Hg in E. simpl in E.
    unfold bind, get_cfg in E. rewrite Hm in E. injection E; intros; subst; reflexivity.
  - intros Hg Hm Hns Hd. subst deleted.
    rewrite processSecretEvent_nondelete_openshift in E by assumption.
    destruct (hasVersionAnnotation secret); [destruct (ConditionIsTrue _ _)|];
      injection E; intros; subst; reflexivity.
  - intros Hg Hm Hns Hd Hw. subst deleted.
    rewrite processSecretEvent_delete_openshift, Hw in E by assumption.
    injection E; intros; subst; reflexivity.
  - intros Hg Hm Hns Hd Hw. subst deleted.
    rewrite processSecretEvent_delete_openshift, Hw, Hm in E by (assumption || congruence).
    simpl in E. injection E; intros; subst; reflexivity.
  - intros Hg Hm [Hns | (Hd & Hw & Hr)].
    + rewrite processSecretEvent_other_namespace in E by assumption.
      pose proof (process_tail_retry env (is_removed (cfg_managementState (st_cfg st)))
                    deleted secret st) as H. rewrite E in H. exact H.
    + subst deleted.
      destruct (String.eqb_spec (sec_namespace secret) "openshift") as [Hns|Hns].
      * rewrite processSecretEvent_delete_openshift, Hw in E by assumption.
        destruct (cfg_managementState (st_cfg st)) eqn:Ems; try congruence; simpl in E;
          pose proof (process_tail_retry env false true secret st) as H;
          rewrite E in H; exact H.
      * rewrite processSecretEvent_other_namespace in E by assumption.
        pose proof (process_tail_retry env (is_removed (cfg_managementState (st_cfg st)))
                      true secret st) as H. rewrite E in H. exact H.
Qed.

Lemma processSecretEvent_retry_counter_witness :
  let st := mkSt (cfgWith Managed ConditionTrue) 2 [] in
  st_retry (snd (processSecretEvent (okEnv 0) srcSecret false st)) = 0.
Proof.
  cbv zeta.
  pose proof (processSecretEvent_retry_counter (okEnv 0) (mkSt (cfgWith Managed ConditionTrue) 2 [])
                srcSecret false) as H.
  destruct (processSecretEvent (okEnv 0) srcSecret false (mkSt (cfgWith Managed ConditionTrue) 2 []))
    as [r st'].
  destruct H as (_ & _ & _ & _ & _ & H). simpl.
  apply H; [reflexivity | discriminate | left; discriminate].
Defined.

(** C4 fails as stated: with the counter at 2, a non-delete event of the
    annotated mirror secret (condition True) is a definitive nil return,
    and the counter stays 2. *)
Lemma processSecretEvent_retry_counter_counterexample :
  processSecretEvent (okEnv 0) (mirrorSecret true) false (mkSt (cfgWith Managed ConditionTrue) 2 [])
  = (None, mkSt (cfgWith Managed ConditionTrue) 2 []).
Proof. vm_compute. reflexivity. Qed.

(** C6 (as the code has it): with the gate clear and the management state
    not Unmanaged, delivering twice the same non-delete event of an
    annotated secret in openshift flushes once in total when the condition
    starts not True (the first delivery sets it True and calls UpdateStatus,
    the second is a no-op), and a delivery is a no-op when it is True. *)
Theorem processSecretEvent_echo_idempotent (env : Env) (st : St) (secret : Secret) :
  env_upserts env = 0 ->
  cfg_managementState (st_cfg st) <> Unmanaged ->
  sec_namespace secret = "openshift" ->
  hasVersionAnnotation secret = true ->
  (ConditionIsTrue (st_cfg st) ImportCredentialsExist = false ->
   let cfg' := GoodConditionUpdate (st_cfg st) ConditionTrue ImportCredentialsExist in
   let st1 := mkSt cfg' (st_retry st) (st_log st ++ [CUpdateStatus cfg']) in
   processSecretEvent env secret false st = (env_updateStatus env cfg', st1) /\
   ConditionIsTrue cfg' ImportCredentialsExist = true /\
   processSecretEvent env secret false st1 = (None, st1)) /\
  (ConditionIsTrue (st_cfg st) ImportCredentialsExist = true ->
   processSecretEvent env secret false st = (None, st)).
Proof.
  intros Hg Hm Hns Ha. split.
  - intros Hf. cbv zeta.
    rewrite processSecretEvent_nondelete_openshift, Ha, Hf by assumption.
    split; [reflexivity|]. split; [apply ConditionIsTrue_good|].
    rewrite processSecretEvent_nondelete_openshift, Ha by
      (simpl; rewrite ?GoodConditionUpdate_mgmt; assumption).
    simpl. rewrite ConditionIsTrue_good. reflexivity.
  - intros Ht. rewrite processSecretEvent_nondelete_openshift, Ha, Ht by assumption.
    reflexivity.
Qed.

Lemma processSecretEvent_echo_idempotent_witness :
  let st := mkSt (cfgWith Managed ConditionFalse) 0 [] in
  let cfg' := GoodConditionUpdate (st_cfg st) ConditionTrue ImportCredentialsExist in
  let st1 := mkSt cfg' (st_retry st) (st_log st ++ [CUpdateStatus cfg']) in
  processSecretEvent (okEnv 0) (mirrorSecret true) false st = (None, st1) /\
  ConditionIsTrue cfg' ImportCredentialsExist = true /\
  processSecretEvent (okEnv 0) (mirrorSecret true) false st1 = (None, st1).
Proof.
  apply (processSecretEvent_echo_idempotent (okEnv 0) (mkSt (cfgWith Managed ConditionFalse) 0 [])
           (mirrorSecret true));
    [reflexivity | discriminate | reflexivity | reflexivity | vm_compute; reflexivity].
Defined.

(** C6 fails as stated: in the Unmanaged state the first delivery neither
    sets the condition True nor flushes. *)
Lemma processSecretEvent_echo_idempotent_counterexample :
  let '(_, st') := processSecretEvent (okEnv 0) (mirrorSecret true) false
                     (mkSt (cfgWith Unmanaged ConditionFalse) 0 []) in
  ConditionIsTrue (st_cfg st') ImportCredentialsExist = false /\
  filter is_update_status (st_log st') = [].
Proof. vm_compute. split; reflexivity. Qed.

(** C10: when [processSecretEvent] reaches [manageDockerCfgSecret] (gate
    clear, neither Unmanaged nor Removed, no early return of the openshift
    branch) and it fails, the error is folded into the condition as
    Unknown, UpdateStatus is called, and the result is exactly the result
    of that flush: nil when the flush succeeds. *)
Theorem processSecretEvent_manage_error_flushed (env : Env) (st : St) (secret : Secret)
  (deleted : bool) (e : err) (st1 : St) :
  env_upserts env = 0 ->
  cfg_managementState (st_cfg st) <> Unmanaged ->
  cfg_managementState (st_cfg st) <> Removed ->
  (sec_namespace secret = "openshift" ->
   deleted = true /\
   ConditionIsTrue (st_cfg st) ImportCredentialsExist && Nat.ltb (st_retry st) 3 = false) ->
  manageDockerCfgSecret env deleted secret (with_retry st 0) = (Some e, st1) ->
  let cfg' := fst (processError (st_cfg st1) ImportCredentialsExist ConditionUnknown e) in
  processSecretEvent env secret deleted st =
    (env_updateStatus env cfg', mkSt cfg' (st_retry st1) (st_log st1 ++ [CUpdateStatus cfg'])) /\
  cond_status (Condition_of cfg' ImportCredentialsExist) = ConditionUnknown.
Proof.
  intros Hg Hu Hr Hns Hman. cbv zeta.
  split; [|rewrite processError_condition; reflexivity].
  destruct (String.eqb_spec (sec_namespace secret) "openshift") as [Ho|Ho].
  - destruct (Hns Ho) as [-> Hw].
    rewrite processSecretEvent_delete_openshift, Hw by assumption.
    destruct (cfg_managementState (st_cfg st)); try congruence; simpl;
      rewrite process_tail_eq, Hman; reflexivity.
  - rewrite processSecretEvent_other_namespace by assumption.
    destruct (cfg_managementState (st_cfg st)); try congruence; simpl;
      rewrite process_tail_eq, Hman; reflexivity.
Qed.

Lemma processSecretEvent_manage_error_flushed_witness :
  let st := mkSt (cfgWith Managed ConditionTrue) 1 [] in
  let st1 := mkSt (cfgWith Managed ConditionTrue) 0
               [CCreate "openshift" (secretToCreate failingCreateEnv srcSecret)] in
  let cfg' := fst (processError (st_cfg st1) ImportCredentialsExist ConditionUnknown
                                (Generic "boom")) in
  processSecretEvent failingCreateEnv srcSecret false st =
    (env_updateStatus failingCreateEnv cfg',
     mkSt cfg' (st_retry st1) (st_log st1 ++ [CUpdateStatus cfg'])) /\
  cond_status (Condition_of cfg' ImportCredentialsExist) = ConditionUnknown.
Proof.
  apply (processSecretEvent_manage_error_flushed failingCreateEnv
           (mkSt (cfgWith Managed ConditionTrue) 1 []) srcSecret false (Generic "boom")
           (mkSt (cfgWith Managed ConditionTrue) 0
               [CCreate "openshift" (secretToCreate failingCreateEnv srcSecret)]));
    [reflexivity | discriminate | discriminate | intros H; discriminate H
    | vm_compute; reflexivity].
Defined.

(* ------------------------------------------------------------------ *)
(** ** Further properties of the code *)

Section Preserve.
Variable R : St -> St -> Prop.
Hypothesis R_refl : forall st, R st st.
Hypothesis R_trans : forall a b c, R a b -> R b c -> R a c.

Lemma preserves_ret {A} (a : A) : preserves R (ret a).
Proof. intros st. apply R_refl. Qed.

Lemma preserves_bind {A B} (m : M A) (k : A -> M B) :
  preserves R m -> (forall a, preserves R (k a)) -> preserves R (bind m k).
Proof.
  intros Hm Hk st. unfold bind.
  specialize (Hm st). destruct (m st) as [a st'] eqn:E. simpl in Hm.
  eapply R_trans; [exact Hm | apply Hk].
Qed.

Lemma preserves_get_cfg : (forall st, R st st) -> preserves R get_cfg.
Proof. intros H st. apply H. Qed.
End Preserve.

Lemma preserves_weaken (R R' : St -> St -> Prop) {A} (m : M A) :
  (forall a b, R a b -> R' a b) -> preserves R m -> preserves R' m.
Proof. intros H Hm st. apply H, Hm. Qed.

Lemma cfg_frame_refl c : cfg_frame c c.
Proof. repeat split. Qed.

Lemma cfg_frame_trans a b c : cfg_frame a b -> cfg_frame b c -> cfg_frame a c.
Proof.
  intros (H1 & H2 & H3) (H4 & H5 & H6). repeat split; try congruence.
  intros t Ht. rewrite H6, H3 by exact Ht. reflexivity.
Qed.

Lemma cfg_frame_update c cond : cfg_frame c (ConditionUpdate c ImportCredentialsExist cond).
Proof.
  repeat split. intros t Ht. simpl. rewrite lookup_insert_ne by congruence. reflexivity.
Qed.

Lemma cfg_frame_good c s : cfg_frame c (GoodConditionUpdate c s ImportCredentialsExist).
Proof.
  unfold GoodConditionUpdate. destruct (status_eqb _ _);
    [apply cfg_frame_refl | apply cfg_frame_update].
Qed.

Lemma frame_rel_refl st : frame_rel st st.
Proof. apply cfg_frame_refl. Qed.
Lemma frame_rel_trans a b c : frame_rel a b -> frame_rel b c -> frame_rel a c.
Proof. apply cfg_frame_trans. Qed.

Lemma manage_rel_refl st : manage_rel st st.
Proof.
  split; [reflexivity|]. split; [apply cfg_frame_refl|].
  exists []. rewrite app_nil_r. split; [reflexivity | constructor].
Qed.

Lemma manage_rel_trans a b c : manage_rel a b -> manage_rel b c -> manage_rel a c.
Proof.
  intros (H1 & H2 & n1 & H3 & H4) (H5 & H6 & n2 & H7 & H8).
  split; [congruence|]. split; [eapply cfg_frame_trans; eassumption|].
  exists (n1 ++ n2)%list. split.
  - rewrite H7, H3, app_assoc. reflexivity.
  - apply Forall_app. split; assumption.
Qed.

Lemma manage_rel_frame a b : manage_rel a b -> frame_rel a b.
Proof. intros (_ & H & _). exact H. Qed.

Lemma manage_rel_record c : is_update_status c = false -> preserves manage_rel (record c).
Proof.
  intros Hc st. split; [reflexivity|]. split; [apply cfg_frame_refl|].
  exists [c]. split; [reflexivity | repeat constructor; exact Hc].
Qed.

Lemma manage_rel_good s : preserves manage_rel (good_condition_update s ImportCredentialsExist).
Proof.
  intros st. split; [reflexivity|]. split; [apply cfg_frame_good|].
  exists []. simpl. rewrite app_nil_r. split; [reflexivity | constructor].
Qed.

Lemma frame_rel_record c : preserves frame_rel (record c).
Proof. intros st. apply cfg_frame_refl. Qed.
Lemma frame_rel_put_retry n : preserves frame_rel (put_retry n).
Proof. intros st. apply cfg_frame_refl. Qed.
Lemma frame_rel_get_retry : preserves frame_rel get_retry.
Proof. intros st. apply cfg_frame_refl. Qed.
Lemma frame_rel_good s : preserves frame_rel (good_condition_update s ImportCredentialsExist).
Proof. intros st. apply cfg_frame_good. Qed.
Lemma frame_rel_process_error s e :
  preserves frame_rel (process_error ImportCredentialsExist s e).
Proof. intros st. apply cfg_frame_update. Qed.

Ltac pres R Rrefl Rtrans :=
  repeat match goal with
  | |- preserves R (ret _) => apply (preserves_ret R Rrefl)
  | |- preserves R get_cfg => apply (preserves_get_cfg R Rrefl)
  | |- preserves R (bind _ _) => apply (preserves_bind R Rtrans); [|intro]
  | |- preserves R (match ?x with _ => _ end) => destruct x
  | |- preserves R (if ?b then _ else _) => destruct b
  | |- preserves R (let _ := _ in _) => cbv zeta
  | |- preserves R (record _) => solve [apply manage_rel_record; reflexivity]
  | |- _ => solve [eauto with pres_db]
  | |- preserves R _ => progress unfold secret_get, secret_create, secret_update,
                           secret_delete, UpdateStatus, copy_secret,
                           copyDefaultClusterPullSecret, process_tail
  end.

Create HintDb pres_db.
#[local] Hint Resolve manage_rel_good frame_rel_record frame_rel_put_retry frame_rel_get_retry
  frame_rel_good frame_rel_process_error : pres_db.

Lemma manage_preserves env deleted secret :
  preserves manage_rel (manageDockerCfgSecret env deleted secret).
Proof.
  unfold manageDockerCfgSecret. pres manage_rel manage_rel_refl manage_rel_trans.
Qed.

Lemma manage_frame env deleted secret :
  preserves frame_rel (manageDockerCfgSecret env deleted secret).
Proof. eapply preserves_weaken; [apply manage_rel_frame | apply manage_preserves]. Qed.

#[local] Hint Resolve manage_frame : pres_db.

Lemma processSecretEvent_preserves_frame env secret deleted :
  preserves frame_rel (processSecretEvent env secret deleted).
Proof.
  unfold processSecretEvent. pres frame_rel frame_rel_refl frame_rel_trans.
Qed.

(** [processSecretEvent] only ever changes the ImportCredentialsExist
    condition: the management state, the credential requirement and every
    other condition of the Config come out as they went in. *)
Theorem processSecretEvent_only_import_condition (env : Env) (st : St) (secret : Secret)
  (deleted : bool) :
  let '(_, st') := processSecretEvent env secret deleted st in
  cfg_managementState (st_cfg st') = cfg_managementState (st_cfg st) /\
  cfg_needsCreds (st_cfg st') = cfg_needsCreds (st_cfg st) /\
  forall t, t <> ImportCredentialsExist ->
    cfg_conditions (st_cfg st') !! t = cfg_conditions (st_cfg st) !! t.
Proof.
  pose proof (processSecretEvent_preserves_frame env secret deleted st) as H.
  destruct (processSecretEvent env secret deleted st) as [r st']. exact H.
Qed.

(** [manageDockerCfgSecret] never writes the status and never touches the
    retry counter: it only appends secret-store calls to the log, and of the
    Config it only changes the ImportCredentialsExist condition. *)
Theorem manageDockerCfgSecret_no_status_write (env : Env) (st : St) (deleted : bool)
  (secret : Secret) :
  let '(_, st') := manageDockerCfgSecret env deleted secret st in
  st_retry st' = st_retry st /\
  cfg_frame (st_cfg st) (st_cfg st') /\
  exists new, st_log st' = (st_log st ++ new)%list /\
              Forall (fun c => is_update_status c = false) new.
Proof.
  pose proof (manage_preserves env deleted secret st) as H.
  destruct (manageDockerCfgSecret env deleted secret st) as [r st']. exact H.
Qed.

(** The retry counter never goes above 3: starting at most 3, it is at
    most 3 after any event. *)
Theorem processSecretEvent_retry_bounded (env : Env) (st : St) (secret : Secret)
  (deleted : bool) :
  st_retry st <= 3 ->
  st_retry (snd (processSecretEvent env secret deleted st)) <= 3.
Proof.
  intros Hle.
  destruct (Nat.ltb_spec 0 (env_upserts env)) as [Hg|Hg].
  { rewrite processSecretEvent_busy_gate by exact Hg. exact Hle. }
  assert (Hg0 : env_upserts env = 0) by lia. clear Hg.
  assert (Hu : cfg_managementState (st_cfg st) = Unmanaged \/
               cfg_managementState (st_cfg st) <> Unmanaged)
    by (destruct (cfg_managementState (st_cfg st)); [right|left|right|right]; congruence).
  destruct Hu as [Hu|Hu].
  { unfold processSecretEvent, bind, get_cfg. rewrite Hg0. simpl. rewrite Hu. exact Hle. }
  destruct (String.eqb_spec (sec_namespace secret) "openshift") as [Ho|Ho].
  - destruct deleted.
    + rewrite processSecretEvent_delete_openshift by assumption.
      destruct (ConditionIsTrue (st_cfg st) ImportCredentialsExist) eqn:Et;
        destruct (Nat.ltb_spec (st_retry st) 3); simpl.
      * lia.
      * destruct (is_removed _); [exact Hle | rewrite process_tail_retry; lia].
      * destruct (is_removed _); [exact Hle | rewrite process_tail_retry; lia].
      * destruct (is_removed _); [exact Hle | rewrite process_tail_retry; lia].
    + rewrite processSecretEvent_nondelete_openshift by assumption.
      destruct (hasVersionAnnotation secret); [destruct (ConditionIsTrue _ _)|]; exact Hle.
  - rewrite processSecretEvent_other_namespace by assumption.
    rewrite process_tail_retry. lia.
Qed.

Lemma processSecretEvent_retry_bounded_witness :
  st_retry (mkSt (cfgWith Managed ConditionTrue) 2 []) <= 3 /\
  st_retry (snd (processSecretEvent (okEnv 0) (mirrorSecret false) true
                   (mkSt (cfgWith Managed ConditionTrue) 2 []))) <= 3.
Proof.
  split; [simpl; lia|].
  apply processSecretEvent_retry_bounded. simpl. lia.
Defined.

(** In the Unmanaged state, with the gate clear, every event is ignored:
    nil is returned and nothing (Config, counter, calls) changes. *)
Theorem processSecretEvent_unmanaged_noop (env : Env) (st : St) (secret : Secret)
  (deleted : bool) :
  env_upserts env = 0 ->
  cfg_managementState (st_cfg st) = Unmanaged ->
  processSecretEvent env secret deleted st = (None, st).
Proof.
  intros Hg Hu. unfold processSecretEvent, bind, get_cfg. rewrite Hg. simpl.
  rewrite Hu. reflexivity.
Qed.

Lemma processSecretEvent_unmanaged_noop_witness :
  processSecretEvent (okEnv 0) srcSecret true (mkSt (cfgWith Unmanaged ConditionTrue) 1 [])
  = (None, mkSt (cfgWith Unmanaged ConditionTrue) 1 []).
Proof. apply processSecretEvent_unmanaged_noop; reflexivity. Defined.

(** In the Removed state, events of secrets outside the openshift namespace,
    the source secret's creations and deletions included, are ignored:
    nil, no call, Config unchanged; only the retry counter is reset. *)
Theorem processSecretEvent_removed_ignores_outside (env : Env) (st : St) (secret : Secret)
  (deleted : bool) :
  env_upserts env = 0 ->
  cfg_managementState (st_cfg st) = Removed ->
  sec_namespace secret <> "openshift" ->
  processSecretEvent env secret deleted st = (None, with_retry st 0).
Proof.
  intros Hg Hr Hns.
  rewrite processSecretEvent_other_namespace by (congruence || assumption).
  rewrite Hr. reflexivity.
Qed.

Lemma processSecretEvent_removed_ignores_outside_witness :
  processSecretEvent (okEnv 0) srcSecret true (mkSt (cfgWith Removed ConditionTrue) 2 [])
  = (None, with_retry (mkSt (cfgWith Removed ConditionTrue) 2 []) 0).
Proof.
  apply processSecretEvent_removed_ignores_outside; [reflexivity | reflexivity | discriminate].
Defined.

Lemma flush_shape_none env st : flush_shape env st None st.
Proof.
  exists []. rewrite app_nil_r. split; [reflexivity|]. left. split; [constructor | left; reflexivity].
Qed.

Lemma flush_shape_flush env st cfg' :
  flush_shape env st (env_updateStatus env cfg')
    (mkSt cfg' (st_retry st) (st_log st ++ [CUpdateStatus cfg'])).
Proof.
  exists [CUpdateStatus cfg']. split; [reflexivity|]. right.
  exists []. split; [reflexivity|]. split; [constructor | reflexivity].
Qed.

Lemma process_tail_removed env deleted secret st :
  process_tail env true deleted secret st = (None, with_retry st 0).
Proof. reflexivity. Qed.

Lemma process_tail_shape env deleted secret st :
  let '(r, st') := process_tail env false deleted secret st in flush_shape env st r st'.
Proof.
  rewrite process_tail_eq.
  pose proof (manage_preserves env deleted secret (with_retry st 0)) as Hp.
  destruct (manageDockerCfgSecret env deleted secret (with_retry st 0)) as [[e|] st1].
  all: simpl in Hp; destruct Hp as (_ & _ & n1 & Hl & Hf); simpl in Hl.
  - exists (n1 ++ [CUpdateStatus (fst (processError (st_cfg st1) ImportCredentialsExist
                                         ConditionUnknown e))])%list.
    simpl. rewrite Hl, app_assoc. split; [reflexivity|].
    right. exists n1. split; [reflexivity|]. split; [exact Hf | reflexivity].
  - destruct (status_eqb _ _).
    + exists n1. split; [exact Hl|]. left. split; [exact Hf | left; reflexivity].
    + exists (n1 ++ [CUpdateStatus (st_cfg st1)])%list.
      simpl. rewrite Hl, app_assoc. split; [reflexivity|].
      right. exists n1. split; [reflexivity|]. split; [exact Hf | reflexivity].
Qed.

(** Every event makes at most one status write: the calls of an event are
    appended to the log; either none writes the status and the result is
    nil or the busy, retry or missing-annotation error, or exactly one does,
    as the last call, writing the Config as the event leaves it, and the
    event's result is that write's result.  A secret-store error is never
    returned as such. *)
Theorem processSecretEvent_single_flush (env : Env) (st : St) (secret : Secret)
  (deleted : bool) :
  let '(r, st') := processSecretEvent env secret deleted st in flush_shape env st r st'.
Proof.
  destruct (Nat.ltb_spec 0 (env_upserts env)) as [Hg|Hg].
  { rewrite processSecretEvent_busy_gate by exact Hg.
    exists []. rewrite app_nil_r. split; [reflexivity|].
    left. split; [constructor | right; left; reflexivity]. }
  assert (Hg0 : env_upserts env = 0) by lia. clear Hg.
  assert (Hu : cfg_managementState (st_cfg st) = Unmanaged \/
               cfg_managementState (st_cfg st) <> Unmanaged)
    by (destruct (cfg_managementState (st_cfg st)); [right|left|right|right]; congruence).
  destruct Hu as [Hu|Hu].
  { unfold processSecretEvent, bind, get_cfg. rewrite Hg0. simpl. rewrite Hu.
    apply flush_shape_none. }
  destruct (String.eqb_spec (sec_namespace secret) "openshift") as [Ho|Ho].
  - destruct deleted.
    + rewrite processSecretEvent_delete_openshift by assumption.
      destruct (ConditionIsTrue (st_cfg st) ImportCredentialsExist && Nat.ltb (st_retry st) 3).
      * exists []. rewrite app_nil_r. split; [reflexivity|].
        left. split; [constructor | right; right; left; reflexivity].
      * destruct (is_removed _); [apply flush_shape_flush | apply process_tail_shape].
    + rewrite processSecretEvent_nondelete_openshift by assumption.
      destruct (hasVersionAnnotation secret); [destruct (ConditionIsTrue _ _)|].
      * apply flush_shape_none.
      * apply flush_shape_flush.
      * exists []. rewrite app_nil_r. split; [reflexivity|].
        left. split; [constructor | right; right; right; reflexivity].
  - rewrite processSecretEvent_other_namespace by assumption.
    destruct (is_removed _).
    + rewrite process_tail_removed. exists []. rewrite app_nil_r. split; [reflexivity|].
      left. split; [constructor | left; reflexivity].
    + apply process_tail_shape.
Qed.

Lemma GoodConditionUpdate_noop cfg s t :
  cond_status (Condition_of cfg t) = s -> GoodConditionUpdate cfg s t = cfg.
Proof. intros H. unfold GoodConditionUpdate. rewrite H. destruct s; reflexivity. Qed.

Lemma manage_source_created_eq env st secret :
  sec_name secret = coreosPullSecretName ->
  sec_namespace secret = coreosPullSecretNamespace ->
  manageDockerCfgSecret env false secret st =
  (copy_result env secret,
   mkSt (match copy_result env secret with
         | None => GoodConditionUpdate (st_cfg st) ConditionTrue ImportCredentialsExist
         | Some _ => st_cfg st end)
        (st_retry st) (st_log st ++ copy_calls env secret)).
Proof.
  intros Hn Hns. unfold manageDockerCfgSecret, secretsWeCareAbout.
  rewrite Hn, Hns. simpl.
  unfold bind. rewrite copy_secret_eq. simpl.
  destruct (copy_result env secret); reflexivity.
Qed.

(** A creation or update of the source secret is copied from the secret of
    the event itself (no Get of the source): the Create (then Update on
    AlreadyExists) of the mirror are the only calls, the condition is set
    True when the copy succeeds, and a failing copy returns its error with
    the Config untouched. *)
Theorem manageDockerCfgSecret_source_created (env : Env) (st : St) (secret : Secret) :
  sec_name secret = coreosPullSecretName ->
  sec_namespace secret = coreosPullSecretNamespace ->
  manageDockerCfgSecret env false secret st =
  (copy_result env secret,
   mkSt (match copy_result env secret with
         | None => GoodConditionUpdate (st_cfg st) ConditionTrue ImportCredentialsExist
         | Some _ => st_cfg st end)
        (st_retry st) (st_log st ++ copy_calls env secret)).
Proof. apply manage_source_created_eq. Qed.

Lemma manageDockerCfgSecret_source_created_witness :
  manageDockerCfgSecret failingCreateEnv false srcSecret (mkSt (cfgWith Managed ConditionTrue) 0 []) =
  (copy_result failingCreateEnv srcSecret,
   mkSt (match copy_result failingCreateEnv srcSecret with
         | None => GoodConditionUpdate (cfgWith Managed ConditionTrue) ConditionTrue ImportCredentialsExist
         | Some _ => cfgWith Managed ConditionTrue end)
        0 ([] ++ copy_calls failingCreateEnv srcSecret)).
Proof. apply manageDockerCfgSecret_source_created; reflexivity. Defined.

(** A deletion of the mirror secret re-creates it from a fresh Get of the
    source secret.  NotFound, from the Get or from the copy, sets the
    condition False and returns nil; a Get returning no secret and no error,
    or a successful copy, sets it True; any other error is returned with the
    Config untouched. *)
Theorem manageDockerCfgSecret_mirror_deleted (env : Env) (st : St) (secret : Secret) :
  sec_name secret = SamplesRegistryCredentials ->
  sec_namespace secret = "openshift" ->
  let cfg := st_cfg st in
  let getc := CGet coreosPullSecretNamespace coreosPullSecretName in
  manageDockerCfgSecret env true secret st =
  match env_get env coreosPullSecretNamespace coreosPullSecretName with
  | inl NotFound =>
      (None, mkSt (GoodConditionUpdate cfg ConditionFalse ImportCredentialsExist)
                  (st_retry st) (st_log st ++ [getc]))
  | inl e => (Some e, mkSt cfg (st_retry st) (st_log st ++ [getc]))
  | inr None =>
      (None, mkSt (GoodConditionUpdate cfg ConditionTrue ImportCredentialsExist)
                  (st_retry st) (st_log st ++ [getc]))
  | inr (Some s) =>
      let calls := (st_log st ++ getc :: copy_calls env s)%list in
      match copy_result env s with
      | None => (None, mkSt (GoodConditionUpdate cfg ConditionTrue ImportCredentialsExist)
                            (st_retry st) calls)
      | Some NotFound =>
          (None, mkSt (GoodConditionUpdate cfg ConditionFalse ImportCredentialsExist)
                      (st_retry st) calls)
      | Some e => (Some e, mkSt cfg (st_retry st) calls)
      end
  end.
Proof.
  intros Hn Hns. cbv zeta. unfold manageDockerCfgSecret, secretsWeCareAbout.
  rewrite Hn, Hns. simpl.
  unfold bind, secret_get, record, ret, good_condition_update, get_cfg, put_cfg. simpl.
  destruct (env_get env coreosPullSecretNamespace coreosPullSecretName) as [[| |m]|[s|]];
    try reflexivity.
  rewrite copy_secret_eq. simpl.
  destruct (copy_result env s) as [[| |m]|]; simpl; rewrite <- ?app_assoc; reflexivity.
Qed.

Lemma manageDockerCfgSecret_mirror_deleted_witness :
  manageDockerCfgSecret (okEnv 0) true (mirrorSecret false) (mkSt (cfgWith Managed ConditionFalse) 0 []) =
  (None, mkSt (GoodConditionUpdate (cfgWith Managed ConditionFalse) ConditionTrue ImportCredentialsExist)
              0 ([] ++ CGet coreosPullSecretNamespace coreosPullSecretName
                        :: copy_calls (okEnv 0) srcSecret)%list).
Proof.
  apply (manageDockerCfgSecret_mirror_deleted (okEnv 0) (mkSt (cfgWith Managed ConditionFalse) 0 [])
           (mirrorSecret false)); reflexivity.
Defined.

(** End to end, outside the Removed and Unmanaged states with the gate
    clear: a creation or update of the source secret copies it into the
    mirror and resets the counter; on success the status is written once
    when the condition was not yet True, and not at all when it was; a
    failed copy is recorded as Unknown and the status written once. *)
Theorem processSecretEvent_source_created (env : Env) (st : St) (secret : Secret) :
  env_upserts env = 0 ->
  cfg_managementState (st_cfg st) <> Unmanaged ->
  cfg_managementState (st_cfg st) <> Removed ->
  sec_name secret = coreosPullSecretName ->
  sec_namespace secret = coreosPullSecretNamespace ->
  let cfg := st_cfg st in
  let calls := (st_log st ++ copy_calls env secret)%list in
  processSecretEvent env secret false st =
  match copy_result env secret with
  | None =>
      if ConditionIsTrue cfg ImportCredentialsExist then (None, mkSt cfg 0 calls)
      else let cfg' := GoodConditionUpdate cfg ConditionTrue ImportCredentialsExist in
           (env_updateStatus env cfg', mkSt cfg' 0 (calls ++ [CUpdateStatus cfg']))
  | Some e =>
      let cfg' := fst (processError cfg ImportCredentialsExist ConditionUnknown e) in
      (env_updateStatus env cfg', mkSt cfg' 0 (calls ++ [CUpdateStatus cfg']))
  end.
Proof.
  intros Hg Hu Hr Hn Hns. cbv zeta.
  rewrite processSecretEvent_other_namespace by (rewrite ?Hns; easy).
  replace (is_removed (cfg_managementState (st_cfg st))) with false
    by (destruct (cfg_managementState (st_cfg st)) eqn:E; simpl; congruence).
  rewrite process_tail_eq, manage_source_created_eq by assumption. simpl.
  destruct (copy_result env secret) as [e|]; [reflexivity|].
  unfold ConditionIsTrue.
  destruct (status_eqb (cond_status (Condition_of (st_cfg st) ImportCredentialsExist))
              ConditionTrue) eqn:Et.
  - apply status_eqb_eq in Et.
    rewrite GoodConditionUpdate_noop by exact Et. rewrite status_eqb_refl. reflexivity.
  - rewrite GoodConditionUpdate_status, Et. reflexivity.
Qed.

Lemma processSecretEvent_source_created_witness :
  processSecretEvent (okEnv 0) srcSecret false (mkSt (cfgWith Managed ConditionFalse) 0 []) =
  (None, mkSt (GoodConditionUpdate (cfgWith Managed ConditionFalse) ConditionTrue ImportCredentialsExist) 0
              (([] ++ copy_calls (okEnv 0) srcSecret) ++
               [CUpdateStatus (GoodConditionUpdate (cfgWith Managed ConditionFalse)
                                 ConditionTrue ImportCredentialsExist)])%list).
Proof.
  apply (processSecretEvent_source_created (okEnv 0) (mkSt (cfgWith Managed ConditionFalse) 0 [])
           srcSecret); [reflexivity | discriminate | discriminate | reflexivity | reflexivity].
Defined.

(** End to end, outside the Removed and Unmanaged states with the gate
    clear: a deletion of the source secret deletes the mirror and resets the
    counter.  On success or NotFound the condition goes False, with one
    status write unless it was False already; any other Delete error is
    recorded as Unknown and the status written once. *)
Theorem processSecretEvent_source_deleted (env : Env) (st : St) (secret : Secret) :
  env_upserts env = 0 ->
  cfg_managementState (st_cfg st) <> Unmanaged ->
  cfg_managementState (st_cfg st) <> Removed ->
  sec_name secret = coreosPullSecretName ->
  sec_namespace secret = coreosPullSecretNamespace ->
  let cfg := st_cfg st in
  let calls := (st_log st ++ [CDelete "openshift" SamplesRegistryCredentials])%list in
  let gone :=
    if status_eqb (cond_status (Condition_of cfg ImportCredentialsExist)) ConditionFalse
    then (None, mkSt cfg 0 calls)
    else let cfg' := GoodConditionUpdate cfg ConditionFalse ImportCredentialsExist in
         (env_updateStatus env cfg', mkSt cfg' 0 (calls ++ [CUpdateStatus cfg'])) in
  processSecretEvent env secret true st =
  match env_delete env "openshift" SamplesRegistryCredentials with
  | None | Some NotFound => gone
  | Some e =>
      let cfg' := fst (processError cfg ImportCredentialsExist ConditionUnknown e) in
      (env_updateStatus env cfg', mkSt cfg' 0 (calls ++ [CUpdateStatus cfg']))
  end.
Proof.
  intros Hg Hu Hr Hn Hns. cbv zeta.
  rewrite processSecretEvent_other_namespace by (rewrite ?Hns; easy).
  replace (is_removed (cfg_managementState (st_cfg st))) with false
    by (destruct (cfg_managementState (st_cfg st)) eqn:E; simpl; congruence).
  rewrite process_tail_eq.
  unfold manageDockerCfgSecret, secretsWeCareAbout. rewrite Hn, Hns. simpl.
  unfold bind, secret_delete, record, ret, good_condition_update, get_cfg, put_cfg. simpl.
  assert (Hgone :
    (if status_eqb (cond_status (Condition_of (st_cfg st) ImportCredentialsExist))
                   (cond_status (Condition_of (GoodConditionUpdate (st_cfg st) ConditionFalse
                                                 ImportCredentialsExist) ImportCredentialsExist))
     then (None, mkSt (GoodConditionUpdate (st_cfg st) ConditionFalse ImportCredentialsExist) 0
                      (st_log st ++ [CDelete "openshift" SamplesRegistryCredentials]))
     else (env_updateStatus env (GoodConditionUpdate (st_cfg st) ConditionFalse ImportCredentialsExist),
           mkSt (GoodConditionUpdate (st_cfg st) ConditionFalse ImportCredentialsExist) 0
                ((st_log st ++ [CDelete "openshift" SamplesRegistryCredentials]) ++
                 [CUpdateStatus (GoodConditionUpdate (st_cfg st) ConditionFalse
                                   ImportCredentialsExist)])))
    = (if status_eqb (cond_status (Condition_of (st_cfg st) ImportCredentialsExist)) ConditionFalse
       then (None, mkSt (st_cfg st) 0 (st_log st ++ [CDelete "openshift" SamplesRegistryCredentials]))
       else (env_updateStatus env (GoodConditionUpdate (st_cfg st) ConditionFalse ImportCredentialsExist),
             mkSt (GoodConditionUpdate (st_cfg st) ConditionFalse ImportCredentialsExist) 0
                  ((st_log st ++ [CDelete "openshift" SamplesRegistryCredentials]) ++
                   [CUpdateStatus (GoodConditionUpdate (st_cfg st) ConditionFalse
                                     ImportCredentialsExist)])))).
  { rewrite GoodConditionUpdate_status.
    destruct (status_eqb _ ConditionFalse) eqn:Ef; [|reflexivity].
    apply status_eqb_eq in Ef. rewrite GoodConditionUpdate_noop by exact Ef. reflexivity. }
  destruct (env_delete env "openshift" SamplesRegistryCredentials) as [[| |m]|];
    simpl; try reflexivity; exact Hgone.
Qed.

Lemma processSecretEvent_source_deleted_witness :
  processSecretEvent (okEnv 0) srcSecret true (mkSt (cfgWith Managed ConditionFalse) 1 []) =
  (None, mkSt (cfgWith Managed ConditionFalse) 0
              ([] ++ [CDelete "openshift" SamplesRegistryCredentials])%list).
Proof.
  apply (processSecretEvent_source_deleted (okEnv 0) (mkSt (cfgWith Managed ConditionFalse) 1 [])
           srcSecret); [reflexivity | discriminate | discriminate | reflexivity | reflexivity].
Defined.

(** [WaitingForCredential] reports the missing credential once: after a
    call that returned (true, true), the next call on the updated Config
    returns (true, false) and changes nothing. *)
Theorem WaitingForCredential_reports_once (cfg cfg' : Config) :
  WaitingForCredential cfg = ((true, true), cfg') ->
  WaitingForCredential cfg' = ((true, false), cfg').
Proof.
  unfold WaitingForCredential.
  destruct (cfg_needsCreds cfg) eqn:Hn; [|discriminate].
  destruct (Nat.ltb 0 (String.length (cond_message (Condition_of cfg ImportCredentialsExist))));
    [discriminate|].
  simpl. intros H. injection H as <-. simpl. rewrite Hn.
  unfold Condition_of; simpl. rewrite lookup_insert_eq. reflexivity.
Qed.

Lemma WaitingForCredential_reports_once_witness :
  WaitingForCredential (mkConfig Managed ∅ true) =
    ((true, true), snd (WaitingForCredential (mkConfig Managed ∅ true))) /\
  WaitingForCredential (snd (WaitingForCredential (mkConfig Managed ∅ true))) =
    ((true, false), snd (WaitingForCredential (mkConfig Managed ∅ true))).
Proof.
  split; [reflexivity|].
  apply (WaitingForCredential_reports_once (mkConfig Managed ∅ true)). reflexivity.
Defined.

(** Round trip between the copy and the event handler: the mirror that
    [copyDefaultClusterPullSecret] writes, delivered back as a non-delete
    event in openshift (whatever resource version and UID the server gave
    it), is recognised as the operator's own: it sets the condition True
    with one status write if it was not True, and is a complete no-op if it
    was. *)
Theorem mirror_echo_recognised (env : Env) (st : St) (s : Secret) (rv uid : string) :
  env_upserts env = 0 ->
  cfg_managementState (st_cfg st) <> Unmanaged ->
  processSecretEvent env (mirror_echo env s rv uid) false st =
  if ConditionIsTrue (st_cfg st) ImportCredentialsExist then (None, st)
  else let cfg' := GoodConditionUpdate (st_cfg st) ConditionTrue ImportCredentialsExist in
       (env_updateStatus env cfg', mkSt cfg' (st_retry st) (st_log st ++ [CUpdateStatus cfg'])).
Proof.
  intros Hg Hu.
  rewrite processSecretEvent_nondelete_openshift by (assumption || reflexivity).
  replace (hasVersionAnnotation (mirror_echo env s rv uid)) with true; [reflexivity|].
  unfold hasVersionAnnotation, mirror_echo, secretToCreate. simpl.
  rewrite lookup_insert_eq. reflexivity.
Qed.

Lemma mirror_echo_recognised_witness :
  processSecretEvent (okEnv 0) (mirror_echo (okEnv 0) srcSecret "77" "uid-9") false
    (mkSt (cfgWith Managed ConditionTrue) 0 []) =
  (None, mkSt (cfgWith Managed ConditionTrue) 0 []).
Proof.
  apply (mirror_echo_recognised (okEnv 0) (mkSt (cfgWith Managed ConditionTrue) 0 [])
           srcSecret "77" "uid-9"); [reflexivity | discriminate].
Defined.
